(** * Essential-oil purity pipeline: a shallow embedding

    The analytical core of [AvaliaçãodosOES.py] (normalisation, cosine
    similarity against a reference bank, adulterant screening, purity
    verdict, orchestration, the row selection of the plot and the printed
    report) together with the places where the earlier interpreter
    transcript of the same script differs.

    Numbers.  Every table cell is a NumPy [float64].  The functions are
    written over a scalar interface [DType] that plays the role of the
    NumPy dtype; its instance [binary64] is Rocq's primitive IEEE-754
    doubles, the arithmetic the script runs on, with NaN, infinities,
    signed zeros, rounding and overflow, and it evaluates inside Rocq.

    Library calls ([DataFrame.sum], [DataFrame.div], scikit-learn's
    [cosine_similarity], NumPy broadcasting, Python's [max]) are modelled
    by small functions named after them; reductions run left to right. *)

From Stdlib Require Uint63.
From Stdlib Require Import Floats ZArith String DecimalString List Bool Lia.
Import ListNotations.

Set Warnings "-inexact-float".

(** ** Python exceptions and results *)

Inductive exn : Type :=
| ValueError      (* NumPy / scikit-learn shape and finiteness checks, max([]) *)
| AttributeError. (* method call on None *)

Inductive result (A : Type) : Type :=
| Ok (a : A)
| Raise (e : exn).

Arguments Ok {A} a.
Arguments Raise {A} e.

(** ** The scalar interface (a NumPy dtype) *)

Class DType (F : Type) : Type := {
  f0 : F;
  f1 : F;
  fadd : F -> F -> F;
  fmul : F -> F -> F;
  fdiv : F -> F -> F;
  fsqrt : F -> F;
  fltb : F -> F -> bool;      (* x < y  *)
  fleb : F -> F -> bool;      (* x <= y *)
  isnan : F -> bool;          (* np.isnan *)
  isfinite : F -> bool;       (* np.isfinite *)
  eps : F;                    (* np.finfo(dtype).eps *)
  fromZ : Z -> F              (* a small integer literal *)
}.

(** IEEE-754 binary64. *)
#[export] Instance binary64 : DType float := {|
  f0 := 0%float;
  f1 := 1%float;
  fadd := PrimFloat.add;
  fmul := PrimFloat.mul;
  fdiv := PrimFloat.div;
  fsqrt := PrimFloat.sqrt;
  fltb := PrimFloat.ltb;
  fleb := PrimFloat.leb;
  isnan := PrimFloat.is_nan;
  isfinite := PrimFloat.is_finite;
  eps := 0x1p-52%float;
  fromZ := fun z => PrimFloat.of_uint63 (Uint63.of_Z z)
|}.

(** ** Tables *)

(** A [pd.Series] yielded by [iterrows]: the row's index label ([.name])
    and its cells ([.values]).  Frames loaded by [pd.read_csv] carry the
    labels 0, 1, 2, ... *)
Record Series (F : Type) : Type := mkSeries {
  name : nat;
  values : list F
}.

Arguments mkSeries {F} name values.
Arguments name {F} s.
Arguments values {F} s.

Definition DataFrame (F : Type) : Type := list (Series F).

(** One verdict of the pipeline: the dictionary appended to [resultados]. *)
Record Resultado (F : Type) : Type := mkResultado {
  similaridade : F;
  status : string;
  adulterantes : list nat
}.

Arguments mkResultado {F} similaridade status adulterantes.
Arguments similaridade {F} r.
Arguments status {F} r.
Arguments adulterantes {F} r.

Section Pipeline.

Context {F : Type} {D : DType F}.

(** ** Library calls *)

(** [np.add.reduce] over one row: starts from the first cell; 0 when the
    row is empty. *)
Definition np_sum (xs : list F) : F :=
  match xs with
  | [] => f0
  | x :: tl => fold_left fadd tl x
  end.

(** [DataFrame.sum(axis=1)] on one row; [skipna=True] counts a NaN cell as 0. *)
Definition nan_to_zero (v : F) : F := if isnan v then f0 else v.

Definition row_sum (xs : list F) : F := np_sum (map nan_to_zero xs).

(** [DataFrame.div(s, axis=0)] on one row: IEEE division, which never
    raises (x/0 is an infinity or NaN). *)
Definition row_div (xs : list F) (s : F) : list F :=
  map (fun v => fdiv v s) xs.

(** scikit-learn [normalize(X, norm="l2")] on one row.  A norm below
    [10 * eps] is replaced by 1 ([_handle_zeros_in_scale]). *)
Definition dot (xs ys : list F) : F :=
  np_sum (map (fun p => fmul (fst p) (snd p)) (combine xs ys)).

Definition row_norm (xs : list F) : F := fsqrt (dot xs xs).

Definition handle_zeros_in_scale (n : F) : F :=
  if fltb n (fmul (fromZ 10) eps) then f1 else n.

Definition l2_normalize (xs : list F) : list F :=
  row_div xs (handle_zeros_in_scale (row_norm xs)).

(** [check_array]: at least one feature, every cell finite. *)
Definition check_array (xs : list F) : bool :=
  negb (Nat.eqb (length xs) 0) && forallb isfinite xs.

(** [cosine_similarity([x], [y])[0][0]]. *)
Definition cosine_similarity (xs ys : list F) : result F :=
  if negb (check_array xs) then Raise ValueError
  else if negb (check_array ys) then Raise ValueError
  else if negb (Nat.eqb (length xs) (length ys)) then Raise ValueError
  else Ok (dot (l2_normalize xs) (l2_normalize ys)).

(** NumPy broadcasting of two one-dimensional arrays under a comparison. *)
Definition broadcast (cmp : F -> F -> bool) (xs ys : list F) : result (list bool) :=
  if Nat.eqb (length xs) (length ys) then
    Ok (map (fun p => cmp (fst p) (snd p)) (combine xs ys))
  else match xs, ys with
       | [x], _ => Ok (map (fun y => cmp x y) ys)
       | _, [y] => Ok (map (fun x => cmp x y) xs)
       | _, _ => Raise ValueError
       end.

(** Python's [any]. *)
Definition any (bs : list bool) : bool := existsb (fun b => b) bs.

(** Python's [max] over a list: the first maximal item; [max([])] raises. *)
Definition py_max (xs : list F) : result F :=
  match xs with
  | [] => Raise ValueError
  | x :: tl => Ok (fold_left (fun m v => if fltb m v then v else m) tl x)
  end.

(** ** AvaliaçãodosOES.py *)

(** The literal [0.9]. *)
Definition limiar : F := fdiv (fromZ 9) (fromZ 10).

(** [preprocessar_espectros]: [None] is the value of the [except] branch,
    which the pandas calls of the [try] block never reach. *)
Definition preprocessar_espectros (dados : DataFrame F) : option (DataFrame F) :=
  Some (map (fun s => mkSeries (name s) (row_div (values s) (row_sum (values s)))) dados).

(** [calcular_similaridade]: the loop sits inside [try]; on an exception
    the function logs and returns the scores gathered so far. *)
Fixpoint calcular_similaridade_loop (teste : list F) (banco : DataFrame F)
    (similaridades : list F) : list F :=
  match banco with
  | [] => similaridades
  | referencia :: resto =>
      match cosine_similarity teste (values referencia) with
      | Ok s => calcular_similaridade_loop teste resto (similaridades ++ [s])
      | Raise _ => similaridades
      end
  end.

Definition calcular_similaridade (espectro_teste : Series F)
    (banco_referencia : DataFrame F) : list F :=
  calcular_similaridade_loop (values espectro_teste) banco_referencia [].

(** [detectar_adulterantes]: same [try] shape; the test is
    [any(espectro_teste.values >= adulterante.values)]. *)
Definition ge_any (teste adulterante : list F) : result bool :=
  match broadcast (fun t a => fleb a t) teste adulterante with
  | Ok bs => Ok (any bs)
  | Raise e => Raise e
  end.

Fixpoint detectar_adulterantes_loop (teste : list F) (banco : DataFrame F)
    (detectados : list nat) : list nat :=
  match banco with
  | [] => detectados
  | adulterante :: resto =>
      match ge_any teste (values adulterante) with
      | Ok true => detectar_adulterantes_loop teste resto (detectados ++ [name adulterante])
      | Ok false => detectar_adulterantes_loop teste resto detectados
      | Raise _ => detectados
      end
  end.

Definition detectar_adulterantes (espectro_teste : Series F)
    (banco_adulterantes : DataFrame F) : list nat :=
  detectar_adulterantes_loop (values espectro_teste) banco_adulterantes [].

(** [determinar_pureza]. *)
Definition PURO : string := "Alta potencial de pureza".
Definition ALERTA : string := "Alerta: Produto possivelmente adulterado".

Definition determinar_pureza (sim : F) (adulterantes_detectados : list nat) : string :=
  if fleb limiar sim && match adulterantes_detectados with [] => true | _ => false end
  then PURO else ALERTA.

(** [pipeline], from the three loaded frames (the [None] test on the
    loaders' results is passed) to the list [resultados]; the PCA plot and
    the printed report consume that list and are left out.  A [None] from
    the normaliser would fail at the first method call on it. *)
Fixpoint pipeline_loop (espectros_teste banco_referencia banco_adulterantes : DataFrame F)
    (resultados : list (Resultado F)) : result (list (Resultado F)) :=
  match espectros_teste with
  | [] => Ok resultados
  | espectro :: resto =>
      let similaridades := calcular_similaridade espectro banco_referencia in
      match py_max similaridades with
      | Raise e => Raise e
      | Ok max_similaridade =>
          let adulterantes := detectar_adulterantes espectro banco_adulterantes in
          let status := determinar_pureza max_similaridade adulterantes in
          pipeline_loop resto banco_referencia banco_adulterantes
            (resultados ++ [mkResultado max_similaridade status adulterantes])
      end
  end.

Definition pipeline (espectros_teste banco_referencia banco_adulterantes : DataFrame F)
    : result (list (Resultado F)) :=
  match preprocessar_espectros espectros_teste,
        preprocessar_espectros banco_referencia,
        preprocessar_espectros banco_adulterantes with
  | Some t, Some r, Some a => pipeline_loop t r a []
  | _, _, _ => Raise AttributeError
  end.

(** ** Vocabulary of the statements *)

(** The row [xs] with column [j] set to [v] (unchanged when [j] is out of
    range). *)
Fixpoint upd (j : nat) (v : F) (xs : list F) : list F :=
  match xs, j with
  | [], _ => []
  | _ :: tl, O => v :: tl
  | x :: tl, S j' => x :: upd j' v tl
  end.

(** Some column of [adulterante] is met or exceeded by the same column of
    [teste]. *)
Definition some_column_ge (teste adulterante : list F) : Prop :=
  exists i t a,
    nth_error teste i = Some t /\ nth_error adulterante i = Some a /\ fleb a t = true.

End Pipeline.

(** ** The interpreter transcript of the script

    The same functions without the [try] blocks, so library errors
    propagate, and with a strict comparison in the detector. *)

Module Transcript.
Section Transcript.

Context {F : Type} {D : DType F}.

Definition preprocessar_espectros (dados : DataFrame F) : DataFrame F :=
  map (fun s => mkSeries (name s) (row_div (values s) (row_sum (values s)))) dados.

Fixpoint calcular_similaridade_loop (teste : list F) (banco : DataFrame F)
    (similaridades : list F) : result (list F) :=
  match banco with
  | [] => Ok similaridades
  | referencia :: resto =>
      match cosine_similarity teste (values referencia) with
      | Ok s => calcular_similaridade_loop teste resto (similaridades ++ [s])
      | Raise e => Raise e
      end
  end.

Definition calcular_similaridade (espectro_teste : Series F)
    (banco_referencia : DataFrame F) : result (list F) :=
  calcular_similaridade_loop (values espectro_teste) banco_referencia [].

(** [any(espectro_teste.values > adulterante.values)]. *)
Definition gt_any (teste adulterante : list F) : result bool :=
  match broadcast (fun t a => fltb a t) teste adulterante with
  | Ok bs => Ok (any bs)
  | Raise e => Raise e
  end.

Fixpoint detectar_adulterantes_loop (teste : list F) (banco : DataFrame F)
    (detectados : list nat) : result (list nat) :=
  match banco with
  | [] => Ok detectados
  | adulterante :: resto =>
      match gt_any teste (values adulterante) with
      | Ok true => detectar_adulterantes_loop teste resto (detectados ++ [name adulterante])
      | Ok false => detectar_adulterantes_loop teste resto detectados
      | Raise e => Raise e
      end
  end.

Definition detectar_adulterantes (espectro_teste : Series F)
    (banco_adulterantes : DataFrame F) : result (list nat) :=
  detectar_adulterantes_loop (values espectro_teste) banco_adulterantes [].

(** The verdict differs from the script's in the wording of one label. *)
Definition PURO : string := "Alto potencial de pureza".

Definition determinar_pureza (sim : F) (adulterantes_detectados : list nat) : string :=
  if fleb limiar sim && match adulterantes_detectados with [] => true | _ => false end
  then PURO else ALERTA.

End Transcript.
End Transcript.

(** ** Sample frames (binary64) *)

Definition serie (n : nat) (cells : list float) : Series float := mkSeries n cells.

(** The end-to-end scenario of the specification. *)
Definition amostra : DataFrame float := [serie 0 [45; 55]%float].
Definition referencia_pura : DataFrame float := [serie 0 [50; 50]%float].
Definition adulterante_conhecido : DataFrame float := [serie 0 [60; 40]%float].

(** Degenerate rows. *)
Definition linha_nula : Series float := serie 0 [0; 0; 0]%float.
Definition perfil_nulo : Series float := serie 0 [0; 0]%float.

(** A three-column profile and a four-column bank. *)
Definition perfil3 : Series float := serie 0 [0.2; 0.3; 0.5]%float.
Definition banco4 : DataFrame float :=
  [serie 0 [0.25; 0.25; 0.25; 0.25]%float; serie 1 [0.1; 0.2; 0.3; 0.4]%float].

(** ** The rest of the run: plot grouping and printed report *)

(** What can end a run: an exception of the analytical part, or the
    [TypeError] of [str.join] over items that are not strings. *)
Inductive erro : Type :=
| Propagado (e : exn)
| TypeError.

(** [str(n)] for a natural number. *)
Definition decimal (n : nat) : string := NilEmpty.string_of_uint (Nat.to_uint n).

(** [', '.join(labels)]: the labels are the integer index labels of the
    adulterant frame, so any item makes [join] raise; [None] stands for
    that [TypeError]. *)
Definition join_labels (labels : list nat) : option string :=
  match labels with
  | [] => Some EmptyString
  | _ :: _ => None
  end.

(** [plot_pca]: the positions selected for one label,
    [[j for j, l in enumerate(labels) if l == label]]. *)
Definition indices (label : string) (labels : list string) : list nat :=
  map fst (filter (fun p => String.eqb (snd p) label)
                  (combine (seq 0 (length labels)) labels)).

(** [pd.concat([banco_referencia, espectros_teste])]: the rows of the first
    frame, then those of the second. *)
Definition pd_concat {F : Type} (a b : DataFrame F) : DataFrame F := a ++ b.

Section Relatorio.

Context {F : Type} {D : DType F}.

(** The rendering [f"{x:.2f}"] of a score is left open. *)
Variable formatar_2f : F -> string.

(** [f"Amostra {i + 1}: Similaridade={...:.2f}, Status={...}"]. *)
Definition linha_amostra (i : nat) (res : Resultado F) : string :=
  ("Amostra " ++ decimal (i + 1) ++ ": Similaridade=" ++
   formatar_2f (similaridade res) ++ ", Status=" ++ status res)%string.

(** The final loop of [pipeline] over [enumerate(resultados)]: the lines
    handed to [st.write] so far, and the exception that ends the loop. *)
Fixpoint relatorio_loop (i : nat) (resultados : list (Resultado F))
    (escrito : list string) : list string * option erro :=
  match resultados with
  | [] => (escrito, None)
  | res :: resto =>
      let escrito := escrito ++ [linha_amostra i res] in
      match adulterantes res with
      | [] => relatorio_loop (S i) resto escrito
      | _ :: _ =>
          match join_labels (adulterantes res) with
          | Some s =>
              relatorio_loop (S i) resto
                (escrito ++ [("  - Adulterantes detectados: " ++ s)%string])
          | None => (escrito, Some TypeError)
          end
      end
  end.

(** [pipeline] as a whole, from the three results of [carregar_espectros]
    ([None] when a file could not be read): the [st.write] lines in order
    and the exception that leaves the function, if any.  [plot_pca] sits
    in its own [try] and writes nothing through [st.write]. *)
Definition executar (teste referencia adulterantes_ : option (DataFrame F))
    : list string * option erro :=
  match teste, referencia, adulterantes_ with
  | Some t, Some r, Some a =>
      let escrito :=
        ["Carregando dados..."; "Pré-processando dados...";
         "Calculando similaridades..."]%string in
      match pipeline t r a with
      | Raise e => (escrito, Some (Propagado e))
      | Ok resultados =>
          relatorio_loop 0 resultados
            (escrito ++ ["Visualizando com PCA..."; "Resultados Finais:"]%string)
      end
  | _, _, _ => (["Carregando dados..."%string], None)
  end.

(** The lines of the samples at positions [i], [i+1], ... *)
Fixpoint linhas_de (i : nat) (resultados : list (Resultado F)) : list string :=
  match resultados with
  | [] => []
  | res :: resto => linha_amostra i res :: linhas_de (S i) resto
  end.

(** What the loop of [pipeline] records for one sample. *)
Definition verdict_of (r a : DataFrame F) (espectro : Series F) (res : Resultado F) : Prop :=
  py_max (calcular_similaridade espectro r) = Ok (similaridade res) /\
  adulterantes res = detectar_adulterantes espectro a /\
  status res = determinar_pureza (similaridade res) (adulterantes res).

End Relatorio.

(** ** Vocabulary of the binary64 statements *)

(** The row total in the specification's words, "the sum across all
    compound columns": the cells added one after the other from the left
    in binary64, a missing (NaN) cell counting as 0. *)
Fixpoint soma_desde (acc : float) (cells : list float) : float :=
  match cells with
  | [] => acc
  | c :: resto =>
      soma_desde (PrimFloat.add acc (if PrimFloat.is_nan c then 0%float else c)) resto
  end.

Definition soma_linha_spec (cells : list float) : float :=
  match cells with
  | [] => 0%float
  | c :: resto => soma_desde (if PrimFloat.is_nan c then 0%float else c) resto
  end.








(** * Generic facts: lists, loops, library calls *)

Section Loops.

Context {F : Type} {D : DType F}.

Lemma upd_length (j : nat) (v : F) (xs : list F) :
  length (upd j v xs) = length xs.
Proof.
  revert j; induction xs as [|x tl IH]; intros [|j]; simpl; auto.
Qed.

Lemma upd_nth_same (j : nat) (v old : F) (xs : list F) :
  nth_error xs j = Some old -> nth_error (upd j v xs) j = Some v.
Proof.
  revert j; induction xs as [|x tl IH]; intros [|j]; simpl; try discriminate; auto.
Qed.

Lemma upd_nth_other (i j : nat) (v : F) (xs : list F) :
  i <> j -> nth_error (upd j v xs) i = nth_error xs i.
Proof.
  revert i j; induction xs as [|x tl IH]; intros [|i] [|j] Hne; simpl; auto.
  - contradiction.
Qed.

Lemma any_map_exists {A : Type} (f : A -> bool) (l : list A) :
  any (map f l) = true <-> exists x, In x l /\ f x = true.
Proof.
  unfold any. rewrite existsb_exists. split.
  - intros [b [Hin Hb]]. apply in_map_iff in Hin as [x [Hx Hin]].
    exists x. subst b. now split.
  - intros [x [Hin Hx]]. exists true. split; [|reflexivity].
    apply in_map_iff. now exists x.
Qed.

Lemma in_combine_nth {A B : Type} (l : list A) (l' : list B) (p : A * B) :
  In p (combine l l') <->
  exists i, nth_error l i = Some (fst p) /\ nth_error l' i = Some (snd p).
Proof.
  revert l'; induction l as [|x tl IH]; intros [|y tl']; simpl.
  - split; [contradiction | intros [[|i] [H _]]; discriminate].
  - split; [contradiction | intros [[|i] [H _]]; discriminate].
  - split; [contradiction | intros [[|i] [_ H]]; discriminate].
  - rewrite IH. split.
    + intros [E | [i Hi]].
      * exists O. subst p. now simpl.
      * now exists (S i).
    + intros [[|i] [H1 H2]]; simpl in *.
      * left. destruct p. simpl in *. congruence.
      * right. now exists i.
Qed.

(** The element-wise test on rows of one length. *)
Lemma ge_any_same_length (t a : list F) :
  length t = length a ->
  exists b, ge_any t a = Ok b /\ (b = true <-> some_column_ge t a).
Proof.
  intros Hlen. unfold ge_any, broadcast.
  rewrite (proj2 (Nat.eqb_eq _ _) Hlen).
  eexists; split; [reflexivity|].
  rewrite any_map_exists. unfold some_column_ge. split.
  - intros [[x y] [Hin Hle]]. apply in_combine_nth in Hin as [i [H1 H2]].
    now exists i, x, y.
  - intros [i [x [y [H1 [H2 Hle]]]]]. exists (x, y). split; [|exact Hle].
    apply in_combine_nth. now exists i.
Qed.

Lemma detectar_loop_same_length (t : list F) (banco : DataFrame F) (acc : list nat) (n : nat) :
  Forall (fun a => length (values a) = length t) banco ->
  (In n (detectar_adulterantes_loop t banco acc) <->
   In n acc \/ exists a, In a banco /\ name a = n /\ some_column_ge t (values a)).
Proof.
  revert acc; induction banco as [|a resto IH]; intros acc Hall; simpl.
  - split; [now left | intros [H | [a [[] _]]]; exact H].
  - inversion Hall as [|? ? Ha Hresto]; subst.
    destruct (ge_any_same_length t (values a) (eq_sym Ha)) as [b [Eb Hb]].
    rewrite Eb. destruct b.
    + rewrite (IH _ Hresto), in_app_iff. simpl. split.
      * intros [[H | [H | []]] | [x [Hx Hrest]]]; auto.
        -- right. exists a. split; [now left|]. split; [exact H|]. now apply Hb.
        -- right. exists x. split; [now right | exact Hrest].
      * intros [H | [x [[E | Hx] [Hn Hc]]]]; auto.
        -- subst x. left. right. now left.
        -- right. now exists x.
    + rewrite (IH _ Hresto). split.
      * intros [H | [x [Hx Hrest]]]; auto.
        right. exists x. split; [now right | exact Hrest].
      * intros [H | [x [[E | Hx] [Hn Hc]]]]; auto.
        -- subst x. apply Hb in Hc. discriminate.
        -- right. now exists x.
Qed.

Lemma nodup_names_inj (banco : DataFrame F) (a b : Series F) :
  NoDup (map name banco) -> In a banco -> In b banco -> name a = name b -> a = b.
Proof.
  induction banco as [|c resto IH]; simpl; [contradiction|].
  intros Hnd [Ea | Ha] [Eb | Hb] Hn; inversion Hnd as [|? ? Hnot Hnd']; subst.
  - reflexivity.
  - exfalso. apply Hnot. rewrite Hn. now apply in_map.
  - exfalso. apply Hnot. rewrite <- Hn. now apply in_map.
  - now apply IH.
Qed.

End Loops.

(** * The normaliser, for any scalar type *)

Lemma preprocessar_espectros_shape {F : Type} {D : DType F} (dados : DataFrame F) :
  exists t, preprocessar_espectros dados = Some t /\
    Forall2 (fun row out =>
      name out = name row /\
      length (values out) = length (values row) /\
      values out = map (fun v => fdiv v (row_sum (values row))) (values row)) dados t.
Proof.
  eexists. split; [reflexivity|].
  induction dados as [|row resto IH]; simpl; constructor; [|exact IH].
  simpl. repeat split. unfold row_div. now rewrite length_map.
Qed.

(** * The adulterant detector *)

Section Detector.

Context {F : Type} {D : DType F}.

(** C2.  Over one column schema, the detector reports an adulterant row
    exactly when some column of the test profile is greater than or equal
    to the same column of that row; one such column is enough. *)
Theorem detectar_adulterantes_flags_iff
    (teste : Series F) (banco : DataFrame F) (x : Series F) :
  Forall (fun a => length (values a) = length (values teste)) banco ->
  NoDup (map name banco) ->
  In x banco ->
  (In (name x) (detectar_adulterantes teste banco) <->
   some_column_ge (values teste) (values x)).
Proof.
  intros Hlen Hnd Hx. unfold detectar_adulterantes.
  rewrite (detectar_loop_same_length _ _ _ _ Hlen). split.
  - intros [[] | [a [Ha [Hn Hc]]]].
    now rewrite <- (nodup_names_inj banco a x Hnd Ha Hx Hn).
  - intros Hc. right. now exists x.
Qed.

Lemma cosine_similarity_mismatch (t row : list F) :
  length row <> length t -> cosine_similarity t row = Raise ValueError.
Proof.
  intros Hne. unfold cosine_similarity.
  destruct (check_array t); simpl; [|reflexivity].
  destruct (check_array row); simpl; [|reflexivity].
  destruct (Nat.eqb_spec (length t) (length row)) as [E|_]; simpl; [|reflexivity].
  now elim Hne.
Qed.

Lemma ge_any_mismatch (t row : list F) :
  length row <> length t -> length t <> 1 -> length row <> 1 ->
  ge_any t row = Raise ValueError.
Proof.
  intros Hne Ht Hrow. unfold ge_any, broadcast.
  destruct (Nat.eqb_spec (length t) (length row)) as [E|_]; [now elim Hne|].
  destruct t as [|x [|x' t]], row as [|y [|y' row]]; simpl in *;
    try reflexivity; contradiction.
Qed.

(** C8 (as the script behaves).  When every row of the bank has a column
    count different from the test profile's, scikit-learn raises
    [ValueError] for each pair, and so does NumPy's comparison unless one
    of the two counts is 1; both functions catch the error and return the
    empty list. *)
Theorem schema_mismatch_returns_empty (teste : Series F) (banco : DataFrame F) :
  Forall (fun row => length (values row) <> length (values teste)) banco ->
  (Forall (fun row => cosine_similarity (values teste) (values row) = Raise ValueError) banco /\
   calcular_similaridade teste banco = []) /\
  (length (values teste) <> 1 ->
   Forall (fun row => length (values row) <> 1) banco ->
   Forall (fun row => ge_any (values teste) (values row) = Raise ValueError) banco /\
   detectar_adulterantes teste banco = []).
Proof.
  intros Hmis. split; [split|].
  - eapply Forall_impl; [|exact Hmis]. intros row. apply cosine_similarity_mismatch.
  - unfold calcular_similaridade. destruct banco as [|row resto]; simpl; [reflexivity|].
    inversion Hmis as [|? ? Hrow _]; subst.
    now rewrite (cosine_similarity_mismatch _ _ Hrow).
  - intros Ht Hone. split.
    + rewrite Forall_forall in *. intros row Hin.
      apply ge_any_mismatch; auto.
    + unfold detectar_adulterantes. destruct banco as [|row resto]; simpl; [reflexivity|].
      inversion Hmis as [|? ? Hrow _]; inversion Hone as [|? ? Hrow1 _]; subst.
      now rewrite (ge_any_mismatch _ _ Hrow Ht Hrow1).
Qed.

(** C10.  With an empty reference bank the scorer returns the empty list
    for every test profile, [max] of that list raises, and the pipeline
    stops at its first test row without a result list. *)
Theorem pipeline_empty_reference (teste adul : DataFrame F) :
  teste <> [] ->
  (forall espectro : Series F, calcular_similaridade espectro [] = []) /\
  py_max (@nil F) = Raise ValueError /\
  pipeline teste [] adul = Raise ValueError.
Proof.
  intros Hne. split; [reflexivity|]. split; [reflexivity|].
  destruct teste as [|espectro resto]; [now elim Hne|]. reflexivity.
Qed.

End Detector.

(** In the transcript the same mismatch propagates as a [ValueError]. *)
Lemma transcript_schema_mismatch_raises {F : Type} {D : DType F}
    (teste row : Series F) (resto : DataFrame F) :
  length (values row) <> length (values teste) ->
  Transcript.calcular_similaridade teste (row :: resto) = Raise ValueError.
Proof.
  intros Hne. unfold Transcript.calcular_similaridade. simpl.
  now rewrite (cosine_similarity_mismatch _ _ Hne).
Qed.

(** * Monotonicity of the detector, for any scalar order *)

Section Monotone.

Context {F : Type} {D : DType F}.

Variables (old v : F).

(** What "raising a cell from [old] to [v]" must preserve. *)
Hypothesis raise_keeps_ge : forall a : F, fleb a old = true -> fleb a v = true.

Lemma any_map_existsb {A : Type} (f : A -> bool) (l : list A) :
  any (map f l) = existsb f l.
Proof.
  unfold any. induction l as [|x tl IH]; simpl; [reflexivity | now rewrite IH].
Qed.

Lemma existsb_upd_row (y : F) (t : list F) (j : nat) :
  nth_error t j = Some old ->
  existsb (fun x => fleb y x) t = true ->
  existsb (fun x => fleb y x) (upd j v t) = true.
Proof.
  revert j; induction t as [|x tl IH]; intros [|j]; simpl; try discriminate.
  - intros E H. injection E as ->. apply orb_true_iff in H as [H | H].
    + now rewrite (raise_keeps_ge _ H).
    + rewrite H. apply orb_true_r.
  - intros E H. apply orb_true_iff in H as [H | H].
    + now rewrite H.
    + rewrite (IH _ E H). apply orb_true_r.
Qed.

Lemma existsb_upd_zip (t a : list F) (j : nat) :
  nth_error t j = Some old ->
  existsb (fun p => fleb (snd p) (fst p)) (combine t a) = true ->
  existsb (fun p => fleb (snd p) (fst p)) (combine (upd j v t) a) = true.
Proof.
  revert a j; induction t as [|x tl IH]; intros [|y a] [|j]; simpl; try discriminate.
  - intros E H. injection E as ->. apply orb_true_iff in H as [H | H].
    + now rewrite (raise_keeps_ge _ H).
    + rewrite H. apply orb_true_r.
  - intros E H. apply orb_true_iff in H as [H | H].
    + now rewrite H.
    + rewrite (IH _ _ E H). apply orb_true_r.
Qed.

(** One adulterant row: the outcome of the comparison can only move from
    "not flagged" to "flagged"; an error stays an error. *)
Lemma ge_any_upd (t a : list F) (j : nat) :
  nth_error t j = Some old ->
  match ge_any t a with
  | Ok true => ge_any (upd j v t) a = Ok true
  | Ok false => exists b, ge_any (upd j v t) a = Ok b
  | Raise e => ge_any (upd j v t) a = Raise e
  end.
Proof.
  intros Hj. unfold ge_any, broadcast. rewrite upd_length.
  destruct (Nat.eqb (length t) (length a)).
  - rewrite !any_map_existsb.
    destruct (existsb _ (combine t a)) eqn:E; [|eauto].
    now rewrite (existsb_upd_zip _ _ _ Hj E).
  - destruct t as [|x [|x' t]].
    + destruct j; discriminate.
    + destruct j as [|[|j]]; try discriminate. simpl in Hj. injection Hj as ->.
      simpl. rewrite !any_map_existsb.
      destruct (existsb _ a) eqn:E; [|eauto].
      apply existsb_exists in E as [y [Hin Hy]].
      replace (existsb (fun y0 => fleb y0 v) a) with true; [reflexivity|].
      symmetry. apply existsb_exists. exists y. split; [exact Hin|].
      now apply raise_keeps_ge.
    + assert (S : exists u u' r, upd j v (x :: x' :: t) = u :: u' :: r).
      { destruct j as [|[|j]]; simpl; eauto. }
      destruct S as [u [u' [r S]]].
      destruct a as [|y [|y' a]].
      * rewrite S. reflexivity.
      * rewrite S. cbv beta iota. rewrite <- S, !any_map_existsb.
        destruct (existsb _ (x :: x' :: t)) eqn:E; [|eauto].
        now rewrite (existsb_upd_row _ _ _ Hj E).
      * rewrite S. reflexivity.
Qed.

Lemma detectar_loop_upd (t : list F) (j : nat) (banco : DataFrame F) :
  nth_error t j = Some old ->
  forall acc acc', incl acc acc' ->
  incl (detectar_adulterantes_loop t banco acc)
       (detectar_adulterantes_loop (upd j v t) banco acc').
Proof.
  intros Hj. induction banco as [|a resto IH]; intros acc acc' Hincl; simpl.
  - exact Hincl.
  - pose proof (ge_any_upd t (values a) j Hj) as H.
    destruct (ge_any t (values a)) as [[|]|e].
    + rewrite H. apply IH. now apply incl_app_app.
    + destruct H as [b H]. rewrite H. destruct b; apply IH.
      * now apply incl_appl.
      * exact Hincl.
    + rewrite H. exact Hincl.
Qed.

End Monotone.

(** * Facts about binary64 *)

Local Open Scope float_scope.

Lemma limiar_binary64 : limiar = 0.9.
Proof. reflexivity. Qed.

Lemma ten_eps_binary64 : fmul (fromZ 10) eps = 0x1.4p-49.
Proof. reflexivity. Qed.

(** The comparison of [SpecFloat] is transitive. *)
Lemma SFleb_ltb_trans (a b c : spec_float) :
  SFleb a b = true -> SFltb b c = true -> SFleb a c = true.
Proof.
  unfold SFleb, SFltb.
  destruct a as [sa|sa| |sa ma ea], b as [sb|sb| |sb mb eb], c as [sc|sc| |sc mc ec];
    simpl; try discriminate; try reflexivity;
    try (destruct sa; simpl; try discriminate; try reflexivity);
    try (destruct sb; simpl; try discriminate; try reflexivity);
    try (destruct sc; simpl; try discriminate; try reflexivity).
  all: rewrite ?Pos.compare_cont_spec; simpl.
  all: destruct (Z.compare_spec ea eb), (Z.compare_spec eb ec), (Z.compare_spec ea ec);
       simpl; try discriminate; try reflexivity; try lia; subst.
  all: destruct (Pos.compare_spec ma mb), (Pos.compare_spec mb mc), (Pos.compare_spec ma mc);
       simpl; try discriminate; try reflexivity; try lia.
Qed.

Lemma leb_ltb_trans (x y z : float) :
  (x <=? y) = true -> (y <? z) = true -> (x <=? z) = true.
Proof.
  rewrite !FloatAxioms.leb_spec, FloatAxioms.ltb_spec. apply SFleb_ltb_trans.
Qed.

Lemma Prim2SF_zero : Prim2SF 0 = S754_zero false.
Proof. reflexivity. Qed.

Lemma Prim2SF_infinity : Prim2SF infinity = S754_infinity false.
Proof. reflexivity. Qed.

Lemma eqb_zero_inv (x : float) :
  (x =? 0) = true -> exists s, Prim2SF x = S754_zero s.
Proof.
  rewrite FloatAxioms.eqb_spec, Prim2SF_zero. unfold SFeqb.
  destruct (Prim2SF x) as [s|s| |s m e]; simpl; try discriminate.
  - intros _. now exists s.
  - destruct s; discriminate.
  - destruct s; discriminate.
Qed.

Lemma eqb_zero_intro (x : float) (s : bool) :
  Prim2SF x = S754_zero s -> (x =? 0) = true.
Proof.
  intros E. now rewrite FloatAxioms.eqb_spec, Prim2SF_zero, E.
Qed.

Lemma is_nan_intro (x : float) : Prim2SF x = S754_nan -> is_nan x = true.
Proof.
  intros E. unfold is_nan. now rewrite FloatAxioms.eqb_spec, E.
Qed.

Lemma nan_intro (x : float) : Prim2SF x = S754_nan -> x = nan.
Proof.
  intros E. apply Prim2SF_inj. now rewrite E.
Qed.

Lemma is_infinity_intro (x : float) (s : bool) :
  Prim2SF x = S754_infinity s -> is_infinity x = true.
Proof.
  intros E. unfold is_infinity.
  now rewrite FloatAxioms.eqb_spec, FloatAxioms.abs_spec, Prim2SF_infinity, E.
Qed.

Lemma zero_not_nan (x : float) : (x =? 0) = true -> is_nan x = false.
Proof.
  intros Hx. destruct (eqb_zero_inv _ Hx) as [a Ea].
  unfold is_nan. now rewrite FloatAxioms.eqb_spec, Ea.
Qed.

(** Division by a zero: never finite, and NaN when the dividend is a zero. *)
Lemma div_by_zero (x s : float) :
  (s =? 0) = true -> is_finite (x / s) = false.
Proof.
  intros Hs. destruct (eqb_zero_inv _ Hs) as [b Eb].
  unfold is_finite.
  assert (H : Prim2SF (x / s) = S754_nan \/ exists c, Prim2SF (x / s) = S754_infinity c).
  { rewrite FloatAxioms.div_spec, Eb. unfold SF64div.
    destruct (Prim2SF x) as [sx|sx| |sx mx ex]; simpl; eauto. }
  destruct H as [H | [c H]].
  - now rewrite (is_nan_intro _ H).
  - rewrite (is_infinity_intro _ _ H). now rewrite orb_true_r.
Qed.

Lemma zero_div_zero (x s : float) :
  (x =? 0) = true -> (s =? 0) = true -> x / s = nan.
Proof.
  intros Hx Hs.
  destruct (eqb_zero_inv _ Hx) as [a Ea], (eqb_zero_inv _ Hs) as [b Eb].
  apply nan_intro. now rewrite FloatAxioms.div_spec, Ea, Eb.
Qed.

Lemma add_zero (x y : float) :
  (x =? 0) = true -> (y =? 0) = true -> (x + y =? 0) = true.
Proof.
  intros Hx Hy.
  destruct (eqb_zero_inv _ Hx) as [a Ea], (eqb_zero_inv _ Hy) as [b Eb].
  apply eqb_zero_intro with (s := if Bool.eqb a b then a else false).
  rewrite FloatAxioms.add_spec, Ea, Eb. unfold SF64add. simpl.
  destruct a, b; reflexivity.
Qed.

(** A zero is below scikit-learn's threshold [10 * eps]. *)
Lemma zero_below_ten_eps (n : float) : (n =? 0) = true -> handle_zeros_in_scale n = 1.
Proof.
  intros Hn. destruct (eqb_zero_inv _ Hn) as [s Es].
  unfold handle_zeros_in_scale. rewrite ten_eps_binary64. simpl.
  now rewrite FloatAxioms.ltb_spec, Es.
Qed.

Lemma not_finite_inv (s : float) :
  is_finite s = false ->
  Prim2SF s = S754_nan \/ exists b, Prim2SF s = S754_infinity b.
Proof.
  unfold is_finite, is_nan, is_infinity.
  rewrite !FloatAxioms.eqb_spec, FloatAxioms.abs_spec, Prim2SF_infinity.
  destruct (Prim2SF s) as [b|b| |b m e]; eauto; unfold SFeqb; simpl.
  - discriminate.
  - destruct b; rewrite Z.compare_refl, Pos.compare_cont_refl; discriminate.
Qed.

Lemma div_by_nonfinite (x s : float) :
  is_finite s = false -> is_nan (x / s) = true \/ (x / s =? 0) = true.
Proof.
  intros Hs.
  assert (H : Prim2SF (x / s) = S754_nan \/ exists c, Prim2SF (x / s) = S754_zero c).
  { rewrite FloatAxioms.div_spec. unfold SF64div.
    destruct (not_finite_inv _ Hs) as [E | [b E]]; rewrite E;
      destruct (Prim2SF x) as [sx|sx| |sx mx ex]; simpl; eauto. }
  destruct H as [H | [c H]].
  - left. now apply is_nan_intro.
  - right. now apply eqb_zero_intro with c.
Qed.

Lemma fold_add_zeros (tl : list float) (x : float) :
  (x =? 0) = true -> Forall (fun v => (v =? 0) = true) tl ->
  (fold_left PrimFloat.add tl x =? 0) = true.
Proof.
  revert x; induction tl as [|y tl IH]; intros x Hx Hall; simpl; [exact Hx|].
  inversion Hall; subst. apply IH; [now apply add_zero | assumption].
Qed.

Lemma row_sum_zeros (xs : list float) :
  Forall (fun v => (v =? 0) = true) xs -> (row_sum xs =? 0) = true.
Proof.
  intros Hall. unfold row_sum.
  assert (E : map nan_to_zero xs = xs).
  { induction Hall as [|v tl Hv _ IH]; simpl; [reflexivity|].
    unfold nan_to_zero at 1. change (isnan v) with (is_nan v).
    now rewrite (zero_not_nan _ Hv), IH. }
  rewrite E. destruct Hall as [|v tl Hv Htl]; [reflexivity|].
  now apply fold_add_zeros.
Qed.

(** What one row becomes when its sum is degenerate. *)
Lemma row_div_degenerate (xs : list float) :
  ((row_sum xs =? 0) = true ->
     Forall (fun c => is_finite c = false) (row_div xs (row_sum xs))) /\
  (Forall (fun v => (v =? 0) = true) xs ->
     Forall (fun c => c = nan) (row_div xs (row_sum xs))) /\
  (is_finite (row_sum xs) = false ->
     Forall (fun c => is_nan c = true \/ (c =? 0) = true) (row_div xs (row_sum xs))).
Proof.
  unfold row_div. repeat split.
  - intros Hs. apply Forall_map, Forall_forall. intros v _. now apply div_by_zero.
  - intros Hall. pose proof (row_sum_zeros _ Hall) as Hs.
    apply Forall_map. eapply Forall_impl; [|exact Hall].
    intros v Hv. now apply zero_div_zero.
  - intros Hs. apply Forall_map, Forall_forall. intros v _. now apply div_by_nonfinite.
Qed.

(** * The normaliser on degenerate rows *)

(** C3 (as the script behaves).  The normaliser returns a table for every
    input and never the [except] value: labels and row lengths are kept;
    a row whose sum is zero comes out with no finite cell, an all-zero row
    comes out all NaN, and a row whose sum is not finite comes out with
    every cell NaN or zero. *)
Theorem preprocessar_espectros_degenerate (dados : DataFrame float) :
  exists t, preprocessar_espectros dados = Some t /\
    Forall2 (fun row out =>
      name out = name row /\
      length (values out) = length (values row) /\
      ((row_sum (values row) =? 0) = true ->
         Forall (fun c => is_finite c = false) (values out)) /\
      (Forall (fun v => (v =? 0) = true) (values row) ->
         Forall (fun c => c = nan) (values out)) /\
      (is_finite (row_sum (values row)) = false ->
         Forall (fun c => is_nan c = true \/ (c =? 0) = true) (values out)))
      dados t.
Proof.
  eexists. split; [reflexivity|].
  induction dados as [|row resto IH]; simpl; constructor; [|exact IH].
  simpl. split; [reflexivity|]. split.
  - unfold row_div. now rewrite length_map.
  - apply row_div_degenerate.
Qed.

(** The all-zero row: a table of NaN comes back, not an error. *)
Lemma preprocessar_espectros_zero_row :
  preprocessar_espectros [linha_nula] = Some [serie 0 [nan; nan; nan]] /\
  row_sum (values linha_nula) = 0.
Proof. split; reflexivity. Qed.

(** * The purity verdict *)

Lemma PURO_neq_ALERTA : PURO <> ALERTA.
Proof. discriminate. Qed.

(** C1.  The verdict is the pure label exactly when the similarity is at
    least 0.9 and no adulterant was found, and the alert label in every
    other case; 0.9 with nothing found is pure, 0.8999 with nothing found
    and 0.95 with one finding are alerts. *)
Theorem determinar_pureza_table (sim : float) (encontrados : list nat) :
  (determinar_pureza sim encontrados = PURO <->
     (0.9 <=? sim) = true /\ encontrados = []) /\
  (determinar_pureza sim encontrados = ALERTA <->
     ~ ((0.9 <=? sim) = true /\ encontrados = [])) /\
  determinar_pureza 0.9 [] = PURO /\
  determinar_pureza 0.8999 [] = ALERTA /\
  (forall k : nat, determinar_pureza 0.95 [k] = ALERTA).
Proof.
  unfold determinar_pureza. rewrite limiar_binary64.
  change (fleb 0.9 sim) with (0.9 <=? sim).
  repeat split; try reflexivity.
  - destruct (0.9 <=? sim); [reflexivity|].
    simpl in H. now elim PURO_neq_ALERTA.
  - destruct encontrados; [reflexivity|].
    rewrite andb_false_r in H. now elim PURO_neq_ALERTA.
  - intros [-> ->]. reflexivity.
  - intros H [Hs He]. rewrite Hs, He in H. simpl in H. now elim PURO_neq_ALERTA.
  - intros H. destruct (0.9 <=? sim), encontrados; simpl; try reflexivity.
    elim H. now split.
Qed.

(** * Monotonicity of detection *)

(** C9.  If a profile makes the detector report an adulterant, so does the
    profile obtained by raising the value of one of its columns. *)
Theorem detection_monotone
    (teste : Series float) (banco : DataFrame float)
    (j : nat) (old v : float) (x : nat) :
  nth_error (values teste) j = Some old ->
  (old <? v) = true ->
  In x (detectar_adulterantes teste banco) ->
  In x (detectar_adulterantes (mkSeries (name teste) (upd j v (values teste))) banco).
Proof.
  intros Hj Hlt Hin. unfold detectar_adulterantes in *. simpl.
  eapply (detectar_loop_upd old v); eauto.
  - intros a Ha. exact (leb_ltb_trans a old v Ha Hlt).
  - apply incl_refl.
Qed.

Lemma detection_monotone_witness :
  In 0%nat (detectar_adulterantes (serie 0 [0.45; 0.55]) [serie 0 [0.6; 0.4]]) /\
  In 0%nat (detectar_adulterantes (serie 0 [0.7; 0.55]) [serie 0 [0.6; 0.4]]).
Proof.
  assert (H : In 0%nat (detectar_adulterantes (serie 0 [0.45; 0.55]) [serie 0 [0.6; 0.4]])).
  { vm_compute. now left. }
  split; [exact H|].
  exact (detection_monotone (serie 0 [0.45; 0.55]) [serie 0 [0.6; 0.4]]
           0 0.45 0.7 0 eq_refl eq_refl H).
Defined.

(** * Zero-norm vectors in the scorer *)

Lemma cosine_similarity_ok {F : Type} {D : DType F} (t row : list F) :
  check_array t = true -> check_array row = true -> length row = length t ->
  cosine_similarity t row = Ok (dot (l2_normalize t) (l2_normalize row)).
Proof.
  intros Ht Hr Hlen. unfold cosine_similarity.
  now rewrite Ht, Hr, Hlen, Nat.eqb_refl.
Qed.

Lemma calcular_similaridade_loop_ok {F : Type} {D : DType F}
    (t : list F) (banco : DataFrame F) (score : Series F -> F) (acc : list F) :
  Forall (fun row => cosine_similarity t (values row) = Ok (score row)) banco ->
  calcular_similaridade_loop t banco acc = acc ++ map score banco.
Proof.
  revert acc; induction banco as [|row resto IH]; intros acc Hall; simpl.
  - now rewrite app_nil_r.
  - inversion Hall as [|? ? Hrow Hresto]; subst.
    now rewrite Hrow, (IH _ Hresto), <- app_assoc.
Qed.

(** C6 (as the script behaves).  On finite vectors of one non-zero length
    the scorer returns a score for every reference row and no error,
    whatever the norms: a vector of norm zero is left unscaled (divided
    by 1) and enters the dot product as it is.  The all-zero profile
    scores 0 against (0.5, 0.5). *)
Theorem zero_norm_is_scored (teste : Series float) (banco : DataFrame float) :
  check_array (values teste) = true ->
  Forall (fun row => check_array (values row) = true /\
                     length (values row) = length (values teste)) banco ->
  calcular_similaridade teste banco =
    map (fun row => dot (l2_normalize (values teste)) (l2_normalize (values row))) banco /\
  (forall xs : list float,
     (row_norm xs =? 0) = true -> l2_normalize xs = map (fun c => c / 1) xs) /\
  calcular_similaridade perfil_nulo [serie 0 [0.5; 0.5]] = [0].
Proof.
  intros Ht Hall. split; [|split].
  - unfold calcular_similaridade.
    rewrite (calcular_similaridade_loop_ok _ _
               (fun row => dot (l2_normalize (values teste)) (l2_normalize (values row)))).
    + reflexivity.
    + eapply Forall_impl; [|exact Hall]. intros row [Hr Hlen].
      now apply cosine_similarity_ok.
  - intros xs Hn. unfold l2_normalize. now rewrite (zero_below_ten_eps _ Hn).
  - reflexivity.
Qed.

Lemma zero_norm_is_scored_witness :
  (row_norm (values perfil_nulo) =? 0) = true /\
  calcular_similaridade perfil_nulo [serie 0 [0.5; 0.5]; serie 1 [0; 0]] =
    map (fun row => dot (l2_normalize (values perfil_nulo)) (l2_normalize (values row)))
        [serie 0 [0.5; 0.5]; serie 1 [0; 0]].
Proof.
  split; [reflexivity|].
  refine (proj1 (zero_norm_is_scored perfil_nulo [serie 0 [0.5; 0.5]; serie 1 [0; 0]] eq_refl _)).
  repeat constructor.
Defined.

(** The zero vector is scored, not rejected. *)
Lemma zero_norm_scores_zero :
  (row_norm (values perfil_nulo) =? 0) = true /\
  cosine_similarity (values perfil_nulo) [0.5; 0.5] = Ok 0 /\
  calcular_similaridade perfil_nulo [serie 0 [0.5; 0.5]] = [0].
Proof. repeat split; reflexivity. Qed.

(** C8, at a three-column profile and a four-column bank. *)
Lemma schema_mismatch_3_vs_4 :
  calcular_similaridade perfil3 banco4 = [] /\
  detectar_adulterantes perfil3 banco4 = [].
Proof. split; reflexivity. Qed.

Lemma schema_mismatch_returns_empty_witness :
  calcular_similaridade perfil3 banco4 = [] /\
  detectar_adulterantes perfil3 banco4 = [].
Proof.
  assert (H : Forall (fun row => length (values row) <> length (values perfil3)) banco4).
  { repeat constructor; simpl; lia. }
  destruct (schema_mismatch_returns_empty perfil3 banco4 H) as [[_ Hs] Hd].
  split; [exact Hs|].
  apply Hd; [simpl; lia | repeat constructor; simpl; lia].
Defined.

(** * Evaluations in binary64 *)

Lemma detectar_adulterantes_flags_iff_witness :
  In 0%nat (detectar_adulterantes (serie 0 [0.45; 0.55]) [serie 0 [0.6; 0.4]; serie 1 [0.5; 0.6]]) <->
  some_column_ge [0.45; 0.55] [0.6; 0.4].
Proof.
  apply (detectar_adulterantes_flags_iff (serie 0 [0.45; 0.55])
           [serie 0 [0.6; 0.4]; serie 1 [0.5; 0.6]] (serie 0 [0.6; 0.4])).
  - repeat constructor.
  - repeat constructor; simpl; intuition discriminate.
  - now left.
Defined.

Lemma pipeline_empty_reference_witness :
  pipeline amostra [] adulterante_conhecido = Raise ValueError.
Proof.
  apply (pipeline_empty_reference amostra adulterante_conhecido). discriminate.
Defined.

(** The end-to-end scenario of the specification: the sample matches the
    reference closely, yet one column meets the adulterant's, so the
    verdict is the alert. *)
Example pipeline_scenario :
  preprocessar_espectros amostra = Some [serie 0 [0.45; 0.55]] /\
  preprocessar_espectros referencia_pura = Some [serie 0 [0.5; 0.5]] /\
  preprocessar_espectros adulterante_conhecido = Some [serie 0 [0.6; 0.4]] /\
  pipeline amostra referencia_pura adulterante_conhecido =
    Ok [mkResultado 0.99503719020998893 ALERTA [0%nat]].
Proof. repeat split; reflexivity. Qed.

(** Rounding in binary64: normalising the scenario's sample a second time
    changes nothing, and the score of a profile against its copy lands
    within a few units in the last place of 1, on either side. *)
Example binary64_rounding :
  preprocessar_espectros [serie 0 [0.45; 0.55]] = Some [serie 0 [0.45; 0.55]] /\
  calcular_similaridade (serie 0 [0.45; 0.55]) [serie 1 [0.45; 0.55]] =
    [0.99999999999999978] /\
  calcular_similaridade (serie 0 [1; 1; 1]) [serie 1 [1; 1; 1]] =
    [1.0000000000000002].
Proof. repeat split; reflexivity. Qed.

(** ** The transcript against the script *)

Lemma transcript_preprocessar_agrees {F : Type} {D : DType F} (dados : DataFrame F) :
  preprocessar_espectros dados = Some (Transcript.preprocessar_espectros dados).
Proof. reflexivity. Qed.

Lemma transcript_calcular_loop_agrees {F : Type} {D : DType F}
    (t : list F) (banco : DataFrame F) (acc scores : list F) :
  Transcript.calcular_similaridade_loop t banco acc = Ok scores ->
  calcular_similaridade_loop t banco acc = scores.
Proof.
  revert acc; induction banco as [|row resto IH]; intros acc; simpl.
  - now intros [= ->].
  - destruct (cosine_similarity t (values row)); [apply IH | discriminate].
Qed.

Lemma transcript_determinar_pureza_agrees {F : Type} {D : DType F}
    (sim : F) (encontrados : list nat) :
  (determinar_pureza sim encontrados = PURO <->
   Transcript.determinar_pureza sim encontrados = Transcript.PURO) /\
  (determinar_pureza sim encontrados = ALERTA <->
   Transcript.determinar_pureza sim encontrados = ALERTA).
Proof.
  unfold determinar_pureza, Transcript.determinar_pureza.
  destruct (fleb limiar sim && _); repeat split; intros H;
    try reflexivity; discriminate H.
Qed.

(** Equality in a column flags the adulterant in the script ([>=]) and
    not in the transcript ([>]). *)
Example transcript_detector_is_strict :
  detectar_adulterantes (serie 0 [0.5; 0.25]) [serie 0 [0.5; 0.5]] = [0%nat] /\
  Transcript.detectar_adulterantes (serie 0 [0.5; 0.25]) [serie 0 [0.5; 0.5]] = Ok [].
Proof. split; reflexivity. Qed.

Local Close Scope float_scope.

(** * Further properties of the loops *)

Section LoopErrors.

Context {F : Type} {D : DType F}.

Lemma cosine_similarity_raises_ValueError (t row : list F) (e : exn) :
  cosine_similarity t row = Raise e -> e = ValueError.
Proof.
  unfold cosine_similarity.
  destruct (negb (check_array t)); [now intros [= <-]|].
  destruct (negb (check_array row)); [now intros [= <-]|].
  destruct (negb (Nat.eqb (length t) (length row))); [now intros [= <-] | discriminate].
Qed.

Lemma ge_any_raises_ValueError (t row : list F) (e : exn) :
  ge_any t row = Raise e -> e = ValueError.
Proof.
  unfold ge_any, broadcast.
  destruct (Nat.eqb (length t) (length row)); [discriminate|].
  destruct t as [|x [|x' t]], row as [|y [|y' row]];
    try discriminate; now intros [= <-].
Qed.

Lemma calcular_loop_stops (t : list F) (pre post : DataFrame F) (bad : Series F)
    (e : exn) (acc : list F) :
  cosine_similarity t (values bad) = Raise e ->
  calcular_similaridade_loop t (pre ++ bad :: post) acc =
  calcular_similaridade_loop t pre acc.
Proof.
  intros Hbad. revert acc; induction pre as [|row pre IH]; intros acc; simpl.
  - now rewrite Hbad.
  - destruct (cosine_similarity t (values row)); [apply IH | reflexivity].
Qed.

Lemma calcular_loop_length (t : list F) (banco : DataFrame F) (acc : list F) :
  length (calcular_similaridade_loop t banco acc) <= length acc + length banco.
Proof.
  revert acc; induction banco as [|row resto IH]; intros acc; simpl; [lia|].
  destruct (cosine_similarity t (values row)); [|lia].
  specialize (IH (acc ++ [a])). rewrite length_app in IH. simpl in IH. lia.
Qed.

(** The scorer stops at the first pair the library rejects: the rows
    after it contribute no score, and nothing tells the caller. *)
Theorem calcular_similaridade_stops_at_error
    (teste : Series F) (pre post : DataFrame F) (bad : Series F) (e : exn) :
  cosine_similarity (values teste) (values bad) = Raise e ->
  calcular_similaridade teste (pre ++ bad :: post) = calcular_similaridade teste pre /\
  length (calcular_similaridade teste (pre ++ bad :: post)) <= length pre.
Proof.
  intros Hbad. unfold calcular_similaridade.
  rewrite (calcular_loop_stops _ _ _ _ _ _ Hbad). split; [reflexivity|].
  apply (calcular_loop_length (values teste) pre []).
Qed.

Lemma detectar_loop_stops (t : list F) (pre post : DataFrame F) (bad : Series F)
    (e : exn) (acc : list nat) :
  ge_any t (values bad) = Raise e ->
  detectar_adulterantes_loop t (pre ++ bad :: post) acc =
  detectar_adulterantes_loop t pre acc.
Proof.
  intros Hbad. revert acc; induction pre as [|row pre IH]; intros acc; simpl.
  - now rewrite Hbad.
  - destruct (ge_any t (values row)) as [[|]|]; [apply IH | apply IH | reflexivity].
Qed.

(** The detector stops the same way: adulterant rows after the first
    rejected comparison are never examined. *)
Theorem detectar_adulterantes_stops_at_error
    (teste : Series F) (pre post : DataFrame F) (bad : Series F) (e : exn) :
  ge_any (values teste) (values bad) = Raise e ->
  detectar_adulterantes teste (pre ++ bad :: post) = detectar_adulterantes teste pre.
Proof.
  intros Hbad. unfold detectar_adulterantes.
  apply (detectar_loop_stops _ _ _ _ _ _ Hbad).
Qed.

Lemma detectar_loop_origin (t : list F) (banco : DataFrame F) (acc : list nat) (n : nat) :
  In n (detectar_adulterantes_loop t banco acc) ->
  In n acc \/ exists a, In a banco /\ name a = n /\ ge_any t (values a) = Ok true.
Proof.
  revert acc; induction banco as [|a resto IH]; intros acc; simpl; [now left|].
  destruct (ge_any t (values a)) as [[|]|e] eqn:E.
  - intros H. apply IH in H as [H | [x [Hx Hrest]]].
    + apply in_app_iff in H as [H | [<- | []]]; [now left|].
      right. exists a. auto.
    + right. exists x. split; [now right | exact Hrest].
  - intros H. apply IH in H as [H | [x [Hx Hrest]]]; [now left|].
    right. exists x. split; [now right | exact Hrest].
  - now left.
Qed.

Lemma detectar_loop_nodup (t : list F) (banco : DataFrame F) (acc : list nat) :
  NoDup (acc ++ map name banco) -> NoDup (detectar_adulterantes_loop t banco acc).
Proof.
  revert acc; induction banco as [|a resto IH]; intros acc; simpl.
  - now rewrite app_nil_r.
  - intros Hnd. destruct (ge_any t (values a)) as [[|]|e].
    + apply IH. now rewrite <- app_assoc.
    + apply IH. now apply NoDup_remove_1 in Hnd.
    + now apply NoDup_app_remove_r in Hnd.
Qed.

(** The detector reports only labels of rows it was given, each for a
    row that passed the comparison, and repeats none when the labels of
    the bank are distinct. *)
Theorem detectar_adulterantes_labels (teste : Series F) (banco : DataFrame F) :
  (forall n, In n (detectar_adulterantes teste banco) ->
     exists a, In a banco /\ name a = n /\ ge_any (values teste) (values a) = Ok true) /\
  (NoDup (map name banco) -> NoDup (detectar_adulterantes teste banco)).
Proof.
  split.
  - intros n H. apply detectar_loop_origin in H as [[] | H]. exact H.
  - intros Hnd. now apply detectar_loop_nodup.
Qed.

(** A one-column profile is broadcast against rows of any length: no
    error, no truncation, and a row is reported exactly when one of its
    cells is at most the profile's only value. *)
Theorem detectar_adulterantes_one_column (n : nat) (x : F) (banco : DataFrame F) :
  detectar_adulterantes (mkSeries n [x]) banco =
  map name (filter (fun a => existsb (fun y => fleb y x) (values a)) banco).
Proof.
  unfold detectar_adulterantes. simpl.
  assert (H : forall acc,
    detectar_adulterantes_loop [x] banco acc =
    acc ++ map name (filter (fun a => existsb (fun y => fleb y x) (values a)) banco)).
  { induction banco as [|a resto IH]; intros acc; simpl; [now rewrite app_nil_r|].
    assert (E : ge_any [x] (values a) = Ok (existsb (fun y => fleb y x) (values a))).
    { unfold ge_any, broadcast. destruct (values a) as [|y [|y' ys]]; simpl.
      - reflexivity.
      - now rewrite orb_false_r.
      - unfold any. simpl. f_equal. f_equal. f_equal.
        induction ys as [|z ys IHys]; simpl; [reflexivity | now rewrite IHys]. }
    rewrite E. destruct (existsb _ (values a)); simpl.
    - now rewrite IH, <- app_assoc.
    - apply IH. }
  apply (H []).
Qed.

End LoopErrors.

(** * The transcript's scorer against the script's *)

Section TranscriptScorer.

Context {F : Type} {D : DType F}.

Lemma transcript_calcular_loop_vs_script (t : list F) (banco : DataFrame F) (acc : list F) :
  match Transcript.calcular_similaridade_loop t banco acc with
  | Ok l => calcular_similaridade_loop t banco acc = l /\
            length l = length acc + length banco
  | Raise e => e = ValueError /\
               length (calcular_similaridade_loop t banco acc) < length acc + length banco
  end.
Proof.
  revert acc; induction banco as [|row resto IH]; intros acc; simpl.
  - split; [reflexivity | lia].
  - destruct (cosine_similarity t (values row)) as [s|e] eqn:E.
    + specialize (IH (acc ++ [s])). rewrite length_app in IH. simpl in IH.
      destruct (Transcript.calcular_similaridade_loop t resto (acc ++ [s])).
      * destruct IH as [IH1 IH2]. split; [exact IH1 | lia].
      * destruct IH as [IH1 IH2]. split; [exact IH1 | lia].
    + split; [now apply cosine_similarity_raises_ValueError in E | lia].
Qed.

(** Where the transcript returns, the script returns the same scores, one
    per reference row; where the transcript raises, the error is a
    [ValueError] and the script returns fewer scores than rows. *)
Theorem transcript_scorer_vs_script (teste : Series F) (banco : DataFrame F) :
  match Transcript.calcular_similaridade teste banco with
  | Ok l => calcular_similaridade teste banco = l /\ length l = length banco
  | Raise e => e = ValueError /\
               length (calcular_similaridade teste banco) < length banco
  end.
Proof.
  exact (transcript_calcular_loop_vs_script (values teste) banco []).
Qed.

End TranscriptScorer.

(** * The result list of the pipeline *)

Section Resultados.

Context {F : Type} {D : DType F}.

Lemma pipeline_loop_spec (t r a : DataFrame F) (acc rs : list (Resultado F)) :
  pipeline_loop t r a acc = Ok rs ->
  exists novos, rs = acc ++ novos /\ Forall2 (verdict_of r a) t novos.
Proof.
  revert acc; induction t as [|espectro resto IH]; intros acc; simpl.
  - intros [= <-]. exists []. split; [now rewrite app_nil_r | constructor].
  - destruct (py_max (calcular_similaridade espectro r)) as [m|e] eqn:E; [|discriminate].
    intros H. apply IH in H as [novos [-> HF]].
    eexists (_ :: novos). split; [now rewrite <- app_assoc|].
    constructor; [|exact HF]. repeat split; assumption.
Qed.

Lemma pipeline_loop_raises_ValueError (t r a : DataFrame F) (acc : list (Resultado F)) (e : exn) :
  pipeline_loop t r a acc = Raise e -> e = ValueError.
Proof.
  revert acc; induction t as [|espectro resto IH]; intros acc; simpl; [discriminate|].
  destruct (calcular_similaridade espectro r) as [|s sims]; simpl.
  - now intros [= <-].
  - apply IH.
Qed.

Lemma pipeline_ok_length (teste ref adul : DataFrame F) (rs : list (Resultado F)) :
  pipeline teste ref adul = Ok rs -> length rs = length teste.
Proof.
  unfold pipeline. unfold preprocessar_espectros at 1 2 3. cbv beta iota.
  intros E. apply pipeline_loop_spec in E as [novos [-> HF]]. simpl.
  apply Forall2_length in HF. now rewrite length_map in HF.
Qed.

(** A run that returns has recorded one verdict per test row, in row
    order: the largest score of the row against the normalised reference
    bank, the adulterants reported for it, and the label computed from
    these two.  A run that raises does so with [ValueError]. *)
Theorem pipeline_one_verdict_per_sample (teste ref adul : DataFrame F) :
  match pipeline teste ref adul with
  | Ok rs =>
      exists t r a,
        preprocessar_espectros teste = Some t /\
        preprocessar_espectros ref = Some r /\
        preprocessar_espectros adul = Some a /\
        length rs = length teste /\
        Forall2 (verdict_of r a) t rs
  | Raise e => e = ValueError
  end.
Proof.
  unfold pipeline. unfold preprocessar_espectros at 1 2 3. cbv beta iota.
  destruct (pipeline_loop _ _ _ []) as [rs|e] eqn:E.
  - apply pipeline_loop_spec in E as [novos [-> HF]]. simpl.
    do 3 eexists. repeat split; try reflexivity; [|exact HF].
    apply Forall2_length in HF. now rewrite length_map in HF.
  - now apply pipeline_loop_raises_ValueError in E.
Qed.

End Resultados.

(** * The printed report *)

Section Report.

Context {F : Type} {D : DType F}.

Variable formatar_2f : F -> string.

Abbreviation sem_achados := (fun res : Resultado F => adulterantes res = []).

(** The report loop either prints one line per sample and ends, which
    happens exactly when no sample has a reported adulterant, or raises
    [TypeError] right after the line of the first sample that has one;
    a line listing adulterants is never printed. *)
Theorem relatorio_loop_outcome (i : nat) (rs : list (Resultado F)) (escrito : list string) :
  match relatorio_loop formatar_2f i rs escrito with
  | (out, None) =>
      Forall sem_achados rs /\ out = escrito ++ linhas_de formatar_2f i rs
  | (out, Some err) =>
      err = TypeError /\
      exists pre res post,
        rs = pre ++ res :: post /\ Forall sem_achados pre /\
        adulterantes res <> [] /\
        out = escrito ++ linhas_de formatar_2f i (pre ++ [res])
  end.
Proof.
  revert i escrito; induction rs as [|res resto IH]; intros i escrito; simpl.
  - split; [constructor | now rewrite app_nil_r].
  - destruct (adulterantes res) as [|n l] eqn:E.
    + specialize (IH (S i) (escrito ++ [linha_amostra formatar_2f i res])).
      destruct (relatorio_loop formatar_2f (S i) resto _) as [out [err|]].
      * destruct IH as [-> [pre [res' [post [-> [Hpre [Hres ->]]]]]]].
        split; [reflexivity|]. exists (res :: pre), res', post.
        repeat split; auto. simpl. now rewrite <- app_assoc.
      * destruct IH as [Hall ->]. split; [now constructor|].
        now rewrite <- app_assoc.
    + simpl. split; [reflexivity|]. exists [], res, resto.
      repeat split; auto. rewrite E. discriminate.
Qed.

Lemma relatorio_loop_none_iff (i : nat) (rs : list (Resultado F)) (escrito out : list string) :
  relatorio_loop formatar_2f i rs escrito = (out, None) <->
  Forall sem_achados rs /\ out = escrito ++ linhas_de formatar_2f i rs.
Proof.
  revert i escrito; induction rs as [|res resto IH]; intros i escrito; simpl.
  - rewrite app_nil_r. split.
    + intros [= <-]. split; [constructor | reflexivity].
    + intros [_ ->]. reflexivity.
  - destruct (adulterantes res) as [|n l] eqn:E; simpl.
    + rewrite IH, <- app_assoc. simpl. split.
      * intros [Hall ->]. split; [now constructor | reflexivity].
      * intros [Hall ->]. inversion Hall; subst. now split.
    + split; [discriminate|]. intros [Hall _]. inversion Hall; subst. congruence.
Qed.

(** With the three files loaded, a run ends without an exception exactly
    when the analytical part returns and reported no adulterant for any
    sample; it has then printed the five progress lines and one line per
    sample. *)
Theorem executar_ends_normally_iff (t r a : DataFrame F) (out : list string) :
  executar formatar_2f (Some t) (Some r) (Some a) = (out, None) <->
  exists rs,
    pipeline t r a = Ok rs /\ Forall sem_achados rs /\
    out = ["Carregando dados..."; "Pré-processando dados...";
           "Calculando similaridades..."; "Visualizando com PCA...";
           "Resultados Finais:"]%string ++ linhas_de formatar_2f 0 rs.
Proof.
  unfold executar. destruct (pipeline t r a) as [rs|e].
  - rewrite relatorio_loop_none_iff. split.
    + intros [Hall ->]. exists rs. now repeat split.
    + intros [rs' [[= <-] [Hall ->]]]. now split.
  - split; [discriminate | intros [rs [H _]]; discriminate].
Qed.

End Report.

(** * The rows selected for the plot *)

Lemma in_combine_seq {A : Type} (ls : list A) (a j : nat) (l : A) :
  In (j, l) (combine (seq a (length ls)) ls) <->
  a <= j /\ nth_error ls (j - a) = Some l.
Proof.
  revert a; induction ls as [|x ls IH]; intros a; simpl.
  - split; [contradiction | intros [_ H]; destruct (j - a); discriminate].
  - rewrite IH. split.
    + intros [[= <- <-] | [Hle H]].
      * split; [lia|]. now rewrite Nat.sub_diag.
      * split; [lia|]. replace (j - a) with (S (j - S a)) by lia. exact H.
    + intros [Hle H]. destruct (Nat.eq_dec a j) as [<- | Hne].
      * left. rewrite Nat.sub_diag in H. simpl in H. congruence.
      * right. split; [lia|]. replace (j - a) with (S (j - S a)) in H by lia. exact H.
Qed.

Lemma indices_spec (label : string) (labels : list string) (j : nat) :
  In j (indices label labels) <-> nth_error labels j = Some label.
Proof.
  unfold indices. rewrite in_map_iff. split.
  - intros [[j' l] [<- H]]. apply filter_In in H as [H E]. simpl in *.
    apply String.eqb_eq in E. subst l.
    apply in_combine_seq in H as [_ H]. now rewrite Nat.sub_0_r in H.
  - intros H. exists (j, label). split; [reflexivity|].
    apply filter_In. split.
    + apply in_combine_seq. split; [lia|]. now rewrite Nat.sub_0_r.
    + simpl. apply String.eqb_refl.
Qed.

(** [plot_pca] receives the verdicts of the test rows as labels but the
    reference rows followed by the test rows as data.  The positions it
    selects are exactly the positions below the number of test rows, each
    under the verdict of the test row of that position; every position
    below the number of reference rows holds a reference row, and no
    position past the number of test rows is ever selected. *)
Theorem plot_pca_positions {F : Type} {D : DType F}
    (teste ref adul t r : DataFrame F) (rs : list (Resultado F)) :
  pipeline teste ref adul = Ok rs ->
  preprocessar_espectros teste = Some t ->
  preprocessar_espectros ref = Some r ->
  (forall label j, In j (indices label (map status rs)) ->
     j < length t /\
     option_map status (nth_error rs j) = Some label /\
     (j < length r -> nth_error (pd_concat r t) j = nth_error r j)) /\
  (forall j, j < length t -> exists label, In j (indices label (map status rs))).
Proof.
  intros Hp [= <-] [= <-].
  pose proof (pipeline_ok_length teste ref adul rs Hp) as Hlen.
  split.
  - intros label j Hj. apply indices_spec in Hj. rewrite nth_error_map in Hj.
    split; [|split].
    + rewrite length_map, <- Hlen. apply nth_error_Some.
      intros E. rewrite E in Hj. discriminate.
    + exact Hj.
    + intros Hr. unfold pd_concat. now apply nth_error_app1.
  - intros j Hj. rewrite length_map, <- Hlen in Hj.
    destruct (nth_error rs j) as [res|] eqn:E.
    + exists (status res). apply indices_spec. now rewrite nth_error_map, E.
    + apply nth_error_None in E. lia.
Qed.

(** * More facts about binary64 *)

Local Open Scope float_scope.

Lemma SFltb_leb (a b : spec_float) : SFltb a b = true -> SFleb a b = true.
Proof.
  unfold SFltb, SFleb. destruct (SFcompare a b) as [[| |]|]; auto.
Qed.

Lemma SFleb_trans (a b c : spec_float) :
  SFleb a b = true -> SFleb b c = true -> SFleb a c = true.
Proof.
  unfold SFleb.
  destruct a as [sa|sa| |sa ma ea], b as [sb|sb| |sb mb eb], c as [sc|sc| |sc mc ec];
    simpl; try discriminate; try reflexivity;
    try (destruct sa; simpl; try discriminate; try reflexivity);
    try (destruct sb; simpl; try discriminate; try reflexivity);
    try (destruct sc; simpl; try discriminate; try reflexivity).
  all: rewrite ?Pos.compare_cont_spec; simpl.
  all: destruct (Z.compare_spec ea eb), (Z.compare_spec eb ec), (Z.compare_spec ea ec);
       simpl; try discriminate; try reflexivity; try lia; subst.
  all: destruct (Pos.compare_spec ma mb), (Pos.compare_spec mb mc), (Pos.compare_spec ma mc);
       simpl; try discriminate; try reflexivity; try lia.
Qed.

Lemma SFleb_total (a b : spec_float) :
  a <> S754_nan -> b <> S754_nan -> SFltb a b = false -> SFleb b a = true.
Proof.
  unfold SFleb, SFltb. intros Ha Hb.
  destruct a as [sa|sa| |sa ma ea], b as [sb|sb| |sb mb eb];
    simpl; try congruence; try reflexivity;
    try (destruct sa; simpl; try discriminate; try reflexivity);
    try (destruct sb; simpl; try discriminate; try reflexivity).
  all: rewrite ?Pos.compare_cont_spec; simpl.
  all: rewrite (Z.compare_antisym ea eb), (Pos.compare_antisym ma mb).
  all: destruct (ea ?= eb)%Z; simpl; try discriminate; try reflexivity.
  all: destruct (ma ?= mb)%positive; simpl; try discriminate; try reflexivity.
Qed.

Lemma not_nan_spec (x : float) : is_nan x = false -> Prim2SF x <> S754_nan.
Proof.
  intros H E. now rewrite (is_nan_intro _ E) in H.
Qed.

Lemma ltb_leb (x y : float) : (x <? y) = true -> (x <=? y) = true.
Proof. rewrite FloatAxioms.ltb_spec, FloatAxioms.leb_spec. apply SFltb_leb. Qed.

Lemma leb_trans (x y z : float) :
  (x <=? y) = true -> (y <=? z) = true -> (x <=? z) = true.
Proof. rewrite !FloatAxioms.leb_spec. apply SFleb_trans. Qed.

Lemma leb_total (x y : float) :
  is_nan x = false -> is_nan y = false -> (x <? y) = false -> (y <=? x) = true.
Proof.
  intros Hx Hy. rewrite FloatAxioms.ltb_spec, FloatAxioms.leb_spec.
  apply SFleb_total; now apply not_nan_spec.
Qed.

Lemma leb_refl (x : float) : is_nan x = false -> (x <=? x) = true.
Proof.
  intros Hx. apply leb_total; auto.
  rewrite FloatAxioms.ltb_spec. unfold SFltb.
  destruct (Prim2SF x) as [s|s| |s m e]; simpl; auto.
  - destruct s; reflexivity.
  - destruct s; rewrite Z.compare_refl, Pos.compare_cont_refl; reflexivity.
Qed.

Lemma leb_nan_l (x : float) : (nan <=? x) = false.
Proof. now rewrite FloatAxioms.leb_spec. Qed.

Lemma leb_nan_r (x : float) : (x <=? nan) = false.
Proof.
  rewrite FloatAxioms.leb_spec. change (Prim2SF nan) with S754_nan.
  unfold SFleb. now destruct (Prim2SF x).
Qed.

Lemma is_nan_nan : is_nan nan = true.
Proof. reflexivity. Qed.

Lemma is_finite_nan : is_finite nan = false.
Proof. reflexivity. Qed.

Lemma nan_div (x s : float) : is_nan x = true -> x / s = nan.
Proof.
  intros Hx. apply nan_intro. rewrite FloatAxioms.div_spec.
  assert (E : Prim2SF x = S754_nan).
  { unfold is_nan in Hx. rewrite FloatAxioms.eqb_spec in Hx.
    destruct (Prim2SF x) as [b|b| |b m e]; auto; unfold SFeqb in Hx; simpl in Hx.
    - discriminate.
    - destruct b; discriminate.
    - destruct b; rewrite Z.compare_refl, Pos.compare_cont_refl in Hx; discriminate. }
  now rewrite E.
Qed.

Lemma SFmul_comm (a b : spec_float) : SFmul prec emax a b = SFmul prec emax b a.
Proof.
  destruct a as [sa|sa| |sa ma ea], b as [sb|sb| |sb mb eb]; simpl;
    rewrite ?(xorb_comm sa sb); try reflexivity.
  now rewrite (Pos.mul_comm ma mb), (Z.add_comm ea eb).
Qed.

Lemma mul_comm (x y : float) : x * y = y * x.
Proof.
  apply Prim2SF_inj. rewrite !FloatAxioms.mul_spec. apply SFmul_comm.
Qed.

(** * The transcript's detector against the script's *)

Lemma broadcast_weaken {F : Type} {D : DType F} (cmp cmp' : F -> F -> bool) (xs ys : list F) :
  (forall x y, cmp x y = true -> cmp' x y = true) ->
  match broadcast cmp xs ys with
  | Ok bs => exists bs', broadcast cmp' xs ys = Ok bs' /\ (any bs = true -> any bs' = true)
  | Raise e => e = ValueError /\ broadcast cmp' xs ys = Raise e
  end.
Proof.
  intros Himp. unfold broadcast. destruct (Nat.eqb (length xs) (length ys)).
  - eexists. split; [reflexivity|]. rewrite !any_map_existsb, !existsb_exists.
    intros [p [Hin Hp]]. exists p. auto.
  - destruct xs as [|x [|x' xs]], ys as [|y [|y' ys]];
      try (split; reflexivity);
      (eexists; split; [reflexivity|]; rewrite !any_map_existsb, !existsb_exists;
       intros [p [Hin Hp]]; exists p; auto).
Qed.

Lemma transcript_detectar_loop_vs_script
    (t : list float) (banco : DataFrame float) (acc acc' : list nat) :
  incl acc acc' ->
  match Transcript.detectar_adulterantes_loop t banco acc with
  | Ok l => incl l (detectar_adulterantes_loop t banco acc')
  | Raise e => e = ValueError
  end.
Proof.
  revert acc acc'; induction banco as [|a resto IH]; intros acc acc' Hincl; simpl.
  - exact Hincl.
  - pose proof (broadcast_weaken (fun t0 a0 => fltb a0 t0) (fun t0 a0 => fleb a0 t0)
                  t (values a) (fun x y => ltb_leb y x)) as H.
    unfold Transcript.gt_any, ge_any.
    destruct (broadcast (fun t0 a0 => fltb a0 t0) t (values a)) as [bs|e].
    + destruct H as [bs' [-> H]].
      destruct (any bs).
      * rewrite (H eq_refl). apply IH. now apply incl_app_app.
      * destruct (any bs'); apply IH; [now apply incl_appl | exact Hincl].
    + exact (proj1 H).
Qed.

(** Whatever the transcript's detector reports (strict comparison), the
    script's detector reports too; when the transcript raises, it is a
    [ValueError]. *)
Theorem transcript_detector_vs_script (teste : Series float) (banco : DataFrame float) :
  match Transcript.detectar_adulterantes teste banco with
  | Ok l => incl l (detectar_adulterantes teste banco)
  | Raise e => e = ValueError
  end.
Proof.
  apply (transcript_detectar_loop_vs_script (values teste) banco [] []).
  apply incl_refl.
Qed.

(** * Symmetry of the score *)

Lemma dot_comm (xs ys : list float) : dot xs ys = dot ys xs.
Proof.
  unfold dot. f_equal. revert ys; induction xs as [|x xs IH]; intros [|y ys]; simpl; auto.
  now rewrite IH, mul_comm.
Qed.

Lemma cosine_similarity_comm (xs ys : list float) :
  cosine_similarity xs ys = cosine_similarity ys xs.
Proof.
  unfold cosine_similarity. rewrite (Nat.eqb_sym (length ys) (length xs)).
  destruct (check_array xs), (check_array ys); simpl; try reflexivity.
  now rewrite dot_comm.
Qed.

(** Scoring [a] against the one-row bank [b] gives the same list, bit for
    bit, as scoring [b] against [a], errors included. *)
Theorem calcular_similaridade_symmetric (a b : Series float) :
  calcular_similaridade a [b] = calcular_similaridade b [a].
Proof.
  unfold calcular_similaridade. simpl. now rewrite cosine_similarity_comm.
Qed.

(** * The best score *)

Lemma max_fold_spec (tl : list float) (x : float) :
  let m := fold_left (fun m v => if m <? v then v else m) tl x in
  In m (x :: tl) /\
  (Forall (fun v => is_nan v = false) (x :: tl) ->
   Forall (fun v => (v <=? m) = true) (x :: tl)).
Proof.
  revert x; induction tl as [|y tl IH]; intros x; simpl.
  - split; [now left|]. intros H. inversion H; subst.
    constructor; [now apply leb_refl | constructor].
  - destruct (IH (if x <? y then y else x)) as [Hin Hall]. split.
    + destruct Hin as [E | Hin]; [|now right; right].
      rewrite <- E. destruct (x <? y); auto.
    + intros Hnn. inversion Hnn as [|? ? Hx Hnn']; subst.
      inversion Hnn' as [|? ? Hy Htl]; subst.
      assert (Hstart : is_nan (if x <? y then y else x) = false)
        by (destruct (x <? y); assumption).
      specialize (Hall (Forall_cons _ Hstart Htl)).
      inversion Hall as [|? ? Hm Hrest]; subst.
      destruct (x <? y) eqn:E.
      * constructor; [|now constructor].
        eapply leb_trans; [apply ltb_leb; exact E | exact Hm].
      * constructor; [exact Hm|]. constructor; [|exact Hrest].
        eapply leb_trans; [apply leb_total; eauto | exact Hm].
Qed.

(** [max] returns one of the scores; when none of them is NaN it is an
    upper bound of all of them. *)
Theorem py_max_upper_bound (xs : list float) (m : float) :
  py_max xs = Ok m ->
  In m xs /\
  (Forall (fun v => is_nan v = false) xs -> Forall (fun v => (v <=? m) = true) xs).
Proof.
  destruct xs as [|x tl]; simpl; [discriminate|].
  intros [= <-]. apply max_fold_spec.
Qed.

Lemma py_max_upper_bound_witness :
  In 0.75 [0.5; 0.75; 0.25] /\
  Forall (fun v => (v <=? 0.75) = true) [0.5; 0.75; 0.25].
Proof.
  destruct (py_max_upper_bound [0.5; 0.75; 0.25] 0.75 eq_refl) as [Hin Hall].
  split; [exact Hin|]. apply Hall. repeat constructor.
Defined.

(** * The verdict along the score *)

(** A NaN score gives the alert whatever was found, and a larger score
    never turns a pure verdict into an alert. *)
Theorem determinar_pureza_monotone (sim sim' : float) (encontrados : list nat) :
  (is_nan sim = true -> determinar_pureza sim encontrados = ALERTA) /\
  ((sim <=? sim') = true ->
   determinar_pureza sim encontrados = PURO ->
   determinar_pureza sim' encontrados = PURO).
Proof.
  unfold determinar_pureza. rewrite limiar_binary64.
  change (fleb 0.9 sim) with (0.9 <=? sim). change (fleb 0.9 sim') with (0.9 <=? sim').
  split.
  - intros Hn. assert (E : sim = nan).
    { unfold is_nan in Hn. apply nan_intro.
      rewrite FloatAxioms.eqb_spec in Hn.
      destruct (Prim2SF sim) as [b|b| |b m e]; auto; unfold SFeqb in Hn; simpl in Hn.
      - discriminate.
      - destruct b; discriminate.
      - destruct b; rewrite Z.compare_refl, Pos.compare_cont_refl in Hn; discriminate. }
    subst sim. now rewrite leb_nan_r.
  - intros Hle H. destruct (0.9 <=? sim) eqn:E.
    + now rewrite (leb_trans _ _ _ E Hle).
    + simpl in H. now elim PURO_neq_ALERTA.
Qed.

(** * Degenerate rows in a run *)

Lemma check_array_nonfinite (xs : list float) :
  Exists (fun c => is_finite c = false) xs -> check_array xs = false.
Proof.
  intros H. unfold check_array. apply andb_false_iff. right.
  induction H as [c tl Hc | c tl _ IH]; cbn [forallb].
  - change (isfinite c) with (is_finite c). now rewrite Hc.
  - rewrite IH. apply andb_false_r.
Qed.

(** A row with a zero sum or a NaN cell does not pass [check_array] once
    normalised. *)
Lemma degenerate_row_rejected (xs : list float) :
  (row_sum xs =? 0) = true \/ Exists (fun v => is_nan v = true) xs ->
  check_array (row_div xs (row_sum xs)) = false.
Proof.
  intros [Hs | Hn].
  - destruct xs as [|x tl]; [reflexivity|].
    apply check_array_nonfinite. simpl. left. now apply div_by_zero.
  - apply check_array_nonfinite. unfold row_div. apply Exists_exists.
    apply Exists_exists in Hn as [v [Hin Hv]].
    exists (v / row_sum xs). split.
    + apply in_map_iff. now exists v.
    + now rewrite (nan_div _ _ Hv).
Qed.

Lemma cosine_similarity_rejects_l {F : Type} {D : DType F} (xs ys : list F) :
  check_array xs = false -> cosine_similarity xs ys = Raise ValueError.
Proof. intros H. unfold cosine_similarity. now rewrite H. Qed.

Lemma cosine_similarity_rejects_r {F : Type} {D : DType F} (xs ys : list F) :
  check_array ys = false -> cosine_similarity xs ys = Raise ValueError.
Proof.
  intros H. unfold cosine_similarity. rewrite H.
  now destruct (check_array xs).
Qed.

Lemma pipeline_loop_rejects {F : Type} {D : DType F}
    (t r a : DataFrame F) (acc : list (Resultado F)) (espectro : Series F) :
  In espectro t -> check_array (values espectro) = false ->
  pipeline_loop t r a acc = Raise ValueError.
Proof.
  intros Hin Hbad. revert acc; induction t as [|e resto IH]; intros acc; [contradiction|].
  simpl. destruct (py_max (calcular_similaridade e r)) as [m|err] eqn:E.
  - destruct Hin as [-> | Hin]; [|now apply IH].
    unfold calcular_similaridade in E. destruct r as [|row r]; simpl in E; [discriminate|].
    rewrite (cosine_similarity_rejects_l _ _ Hbad) in E. discriminate.
  - destruct (calcular_similaridade e r); simpl in E; [|discriminate].
    now injection E as <-.
Qed.

Lemma pipeline_loop_ext {F : Type} {D : DType F}
    (t r r' a : DataFrame F) (acc : list (Resultado F)) :
  (forall e, calcular_similaridade e r = calcular_similaridade e r') ->
  pipeline_loop t r a acc = pipeline_loop t r' a acc.
Proof.
  intros Hext. revert acc; induction t as [|e resto IH]; intros acc; simpl; [reflexivity|].
  rewrite (Hext e). destruct (py_max _); [apply IH | reflexivity].
Qed.

(** One test row with a zero sum or a missing (NaN) cell, anywhere in the
    test table, makes the whole run raise [ValueError]: no sample gets a
    verdict. *)
Theorem pipeline_rejects_degenerate_sample
    (teste ref adul : DataFrame float) (row : Series float) :
  In row teste ->
  (row_sum (values row) =? 0) = true \/ Exists (fun v => is_nan v = true) (values row) ->
  pipeline teste ref adul = Raise ValueError.
Proof.
  intros Hin Hdeg. unfold pipeline. unfold preprocessar_espectros at 1 2 3. cbv beta iota.
  apply pipeline_loop_rejects
    with (espectro := mkSeries (name row) (row_div (values row) (row_sum (values row)))).
  - apply in_map_iff. now exists row.
  - simpl. now apply degenerate_row_rejected.
Qed.

Lemma pipeline_rejects_degenerate_sample_witness :
  pipeline [serie 0 [45; 55]; serie 1 [0; 0]] referencia_pura adulterante_conhecido =
  Raise ValueError.
Proof.
  apply (pipeline_rejects_degenerate_sample _ _ _ (serie 1 [0; 0])).
  - right. now left.
  - left. reflexivity.
Defined.

(** A reference row with a zero sum or a missing (NaN) cell hides every
    reference row after it: the run behaves as if the bank ended just
    before that row. *)
Theorem pipeline_ignores_reference_after_degenerate_row
    (teste pre post adul : DataFrame float) (bad : Series float) :
  (row_sum (values bad) =? 0) = true \/ Exists (fun v => is_nan v = true) (values bad) ->
  pipeline teste (pre ++ bad :: post) adul = pipeline teste pre adul.
Proof.
  intros Hdeg. unfold pipeline. unfold preprocessar_espectros at 1 2 3 4 5 6.
  cbv beta iota. apply pipeline_loop_ext. intros e.
  rewrite map_app. simpl. unfold calcular_similaridade.
  eapply calcular_loop_stops.
  apply cosine_similarity_rejects_r. simpl. now apply degenerate_row_rejected.
Qed.

Lemma pipeline_ignores_reference_after_degenerate_row_witness :
  pipeline amostra ([serie 0 [10; 90]] ++ serie 1 [0; 0] :: referencia_pura)
           adulterante_conhecido =
  pipeline amostra [serie 0 [10; 90]] adulterante_conhecido.
Proof.
  apply (pipeline_ignores_reference_after_degenerate_row amostra [serie 0 [10; 90]]
           referencia_pura adulterante_conhecido (serie 1 [0; 0])).
  left. reflexivity.
Defined.

Lemma ge_any_all_nan (t row : list float) :
  Forall (fun c => c = nan) row -> ge_any t row <> Ok true.
Proof.
  intros Hnan. unfold ge_any.
  assert (H : forall bs, broadcast (fun t0 a0 => fleb a0 t0) t row = Ok bs -> any bs = false).
  { unfold broadcast. intros bs.
    assert (Hzip : any (map (fun p => fleb (snd p) (fst p)) (combine t row)) = false).
    { rewrite any_map_existsb. apply not_true_is_false. intros E.
      apply existsb_exists in E as [[x y] [Hin Hle]]. simpl in Hle.
      apply in_combine_r in Hin. rewrite Forall_forall in Hnan.
      rewrite (Hnan _ Hin) in Hle. change (fleb nan x) with (nan <=? x) in Hle.
      now rewrite leb_nan_l in Hle. }
    assert (Hrow : forall x, any (map (fun y => fleb y x) row) = false).
    { intros x. rewrite any_map_existsb. apply not_true_is_false. intros E.
      apply existsb_exists in E as [y [Hin Hle]]. rewrite Forall_forall in Hnan.
      rewrite (Hnan _ Hin) in Hle. change (fleb nan x) with (nan <=? x) in Hle.
      now rewrite leb_nan_l in Hle. }
    destruct (Nat.eqb (length t) (length row)); [now intros [= <-]|].
    destruct t as [|x [|x' t]], row as [|y [|y' row]]; try discriminate;
      try (intros [= <-]; first [apply Hrow | reflexivity]).
    - intros [= <-]. inversion Hnan; subst.
      change (any (map (fun x0 => nan <=? x0) (x :: x' :: t)) = false).
      rewrite any_map_existsb.
      apply not_true_is_false. intros E. apply existsb_exists in E as [z [_ Hle]].
      now rewrite leb_nan_l in Hle. }
  destruct (broadcast _ t row) as [bs|e]; [|discriminate].
  rewrite (H bs eq_refl). discriminate.
Qed.

Lemma Forall2_right {A B : Type} (P : A -> B -> Prop) (Q : B -> Prop)
    (l : list A) (l' : list B) :
  (forall a b, P a b -> Q b) -> Forall2 P l l' -> Forall Q l'.
Proof.
  intros Himp H. induction H; constructor; eauto.
Qed.

(** An adulterant row that is all zero is never reported for any sample:
    normalised, it is all NaN, and no comparison with NaN holds. *)
Theorem zero_adulterant_never_reported
    (teste ref adul : DataFrame float) (rs : list (Resultado float)) (bad : Series float) :
  pipeline teste ref adul = Ok rs ->
  NoDup (map name adul) ->
  In bad adul ->
  Forall (fun v => (v =? 0) = true) (values bad) ->
  Forall (fun res => ~ In (name bad) (adulterantes res)) rs.
Proof.
  intros Hp Hnd Hbad Hzero.
  unfold pipeline in Hp. unfold preprocessar_espectros at 1 2 3 in Hp. cbv beta iota in Hp.
  apply pipeline_loop_spec in Hp as [novos [-> HF]]. simpl.
  eapply Forall2_right; [|exact HF]. intros e res [_ [Hads _]] Hin.
  rewrite Hads in Hin. unfold detectar_adulterantes in Hin.
  apply detectar_loop_origin in Hin as [[] | [a [Ha [Hn Hge]]]].
  apply in_map_iff in Ha as [row0 [<- Hrow0]]. simpl in Hn, Hge.
  assert (E : row0 = bad) by (eapply nodup_names_inj; eauto). subst row0.
  revert Hge. apply ge_any_all_nan.
  now apply (proj1 (proj2 (row_div_degenerate (values bad)))).
Qed.

Lemma zero_adulterant_never_reported_witness :
  Forall (fun res => ~ In 1%nat (adulterantes res))
    [mkResultado 0.99503719020998893 ALERTA [0%nat]].
Proof.
  apply (zero_adulterant_never_reported amostra referencia_pura
           [serie 0 [60; 40]; serie 1 [0; 0]]
           [mkResultado 0.99503719020998893 ALERTA [0%nat]] (serie 1 [0; 0])).
  - reflexivity.
  - repeat constructor; simpl; intuition discriminate.
  - right. now left.
  - repeat constructor.
Defined.

(** * Further evaluations in binary64 *)

Lemma calcular_similaridade_stops_at_error_witness :
  calcular_similaridade (serie 0 [0.45; 0.55])
    ([serie 0 [0.5; 0.5]] ++ serie 1 [1; 2; 3] :: [serie 2 [0.45; 0.55]]) =
  calcular_similaridade (serie 0 [0.45; 0.55]) [serie 0 [0.5; 0.5]].
Proof.
  exact (proj1 (calcular_similaridade_stops_at_error (serie 0 [0.45; 0.55])
                  [serie 0 [0.5; 0.5]] [serie 2 [0.45; 0.55]] (serie 1 [1; 2; 3])
                  ValueError eq_refl)).
Defined.

Lemma detectar_adulterantes_stops_at_error_witness :
  detectar_adulterantes (serie 0 [0.45; 0.55])
    ([serie 0 [0.6; 0.4]] ++ serie 1 [1; 2; 3] :: [serie 2 [0.1; 0.9]]) =
  detectar_adulterantes (serie 0 [0.45; 0.55]) [serie 0 [0.6; 0.4]].
Proof.
  exact (detectar_adulterantes_stops_at_error (serie 0 [0.45; 0.55])
           [serie 0 [0.6; 0.4]] [serie 2 [0.1; 0.9]] (serie 1 [1; 2; 3])
           ValueError eq_refl).
Defined.

Lemma plot_pca_positions_witness :
  In 0%nat (indices ALERTA [ALERTA]) /\
  nth_error (pd_concat [serie 0 [0.5; 0.5]] [serie 0 [0.45; 0.55]]) 0 =
    Some (serie 0 [0.5; 0.5]).
Proof.
  assert (Hp : pipeline amostra referencia_pura adulterante_conhecido =
               Ok [mkResultado 0.99503719020998893 ALERTA [0%nat]]) by reflexivity.
  assert (Ht : preprocessar_espectros amostra = Some [serie 0 [0.45; 0.55]])
    by reflexivity.
  assert (Hr : preprocessar_espectros referencia_pura = Some [serie 0 [0.5; 0.5]])
    by reflexivity.
  destruct (plot_pca_positions amostra referencia_pura adulterante_conhecido
              [serie 0 [0.45; 0.55]] [serie 0 [0.5; 0.5]]
              [mkResultado 0.99503719020998893 ALERTA [0%nat]]
              Hp Ht Hr) as [Hsel _].
  assert (Hin : In 0%nat (indices ALERTA [ALERTA])) by (now left).
  split; [exact Hin|].
  destruct (Hsel ALERTA 0%nat Hin) as [_ [_ Hrow]].
  rewrite Hrow; [reflexivity | simpl; lia].
Defined.

(** The scenario of the specification, run to the end: the report stops
    with [TypeError] after the line of the first sample, because that
    sample has a reported adulterant. *)
Example executar_scenario (formatar_2f : float -> string) :
  executar formatar_2f (Some amostra) (Some referencia_pura) (Some adulterante_conhecido) =
  (["Carregando dados..."; "Pré-processando dados..."; "Calculando similaridades...";
    "Visualizando com PCA..."; "Resultados Finais:";
    linha_amostra formatar_2f 0 (mkResultado 0.99503719020998893 ALERTA [0%nat])]%string,
   Some TypeError).
Proof. reflexivity. Qed.

Local Close Scope float_scope.

(** * The normaliser and the scorer in binary64 *)

Local Open Scope float_scope.

(** ** Division by one is exact *)





(** ** Rounding keeps the sign and never invents a NaN *)








(** ** Sign classes of the arithmetic *)











(** ** The same facts on [float] *)







(** ** The scorer against the cosine of the specification *)
















(** ** The normaliser *)







(** Within the tolerance but not exactly: the quotients of (0.1, 0.2, 0.3)
    add up to 0.99999999999999989, and the second pass moves each of them
    by one unit in the last place. *)
Example preprocessar_espectros_last_place :
  preprocessar_espectros [serie 0 [0.1; 0.2; 0.3]] =
    Some [serie 0 [0.16666666666666666; 0.33333333333333331; 0.49999999999999989]] /\
  soma_linha_spec [0.16666666666666666; 0.33333333333333331; 0.49999999999999989] =
    0.99999999999999989 /\
  preprocessar_espectros
    [serie 0 [0.16666666666666666; 0.33333333333333331; 0.49999999999999989]] =
    Some [serie 0 [0.16666666666666669; 0.33333333333333337; 0.49999999999999994]].
Proof. repeat split; reflexivity. Qed.

(** ** The scorer *)




Local Close Scope float_scope.
